(** * serial-modbus.c: lifecycle and per-descriptor dispatch of the modbus
      character device

    A shallow embedding of
    [recipes-kernel/kernel-module-modbus/kernel-module-modbus/serial-modbus.c].

    The module's functions are written in a small state monad over a [world]
    that holds the module's static variables, the objects the handlers reach
    through pointers (file objects, the slab allocations behind
    [file->private_data], user memory, [loff_t] cells), the kernel log, and
    the sequence of device-model calls the module made together with what the
    kernel answered.  The kernel itself is not part of the module: what it
    answers to a fallible call is read from a [kernel_env]. *)

From Stdlib Require Import ZArith Lia Ascii.
From stdpp Require Import base option list strings gmap pretty.

Local Open Scope Z_scope.

(** ** Kernel values *)

(** A kernel pointer as the module can tell them apart: [NULL], a valid
    address, or an errno folded into the pointer ([ERR_PTR(-errno)]). *)
Inductive kptr :=
| NULL
| Ptr (a : positive)
| ErrPtr (errno : positive).

#[global] Instance kptr_eq_dec : EqDecision kptr.
Proof. solve_decision. Defined.

(** [!p] *)
Definition is_null (p : kptr) : bool :=
  match p with NULL => true | _ => false end.

Definition IS_ERR (p : kptr) : bool :=
  match p with ErrPtr _ => true | _ => false end.

Definition PTR_ERR (p : kptr) : Z :=
  match p with
  | ErrPtr errno => Z.neg errno
  | Ptr a => Z.pos a
  | NULL => 0
  end.

(** What the kernel answers to a call that returns 0 or a negative errno. *)
Inductive outcome (A : Type) :=
| Ok (a : A)
| Err (errno : positive).
Arguments Ok {A} a.
Arguments Err {A} errno.

#[global] Instance outcome_eq_dec {A} `{EqDecision A} : EqDecision (outcome A).
Proof. solve_decision. Defined.

(** [include/uapi/asm-generic/errno-base.h] *)
Definition ENOMEM : Z := 12.

(** [include/linux/kdev_t.h] *)
Definition MINORBITS : Z := 20.
Definition MINORMASK : Z := Z.ones MINORBITS.
Definition MAJOR (dev : Z) : Z := Z.shiftr dev MINORBITS.
Definition MINOR (dev : Z) : Z := Z.land dev MINORMASK.
Definition MKDEV (ma mi : Z) : Z := Z.lor (Z.shiftl ma MINORBITS) mi.

(** Arguments of a printf-style format, and the two conversions the module
    uses where the rendered text matters (the node name). *)
Inductive fmt_arg :=
| ArgS (s : string)
| ArgD (z : Z).

#[global] Instance fmt_arg_eq_dec : EqDecision fmt_arg.
Proof. solve_decision. Defined.

Fixpoint ksprintf (fmt : string) (args : list fmt_arg) : string :=
  match fmt with
  | EmptyString => EmptyString
  | String c rest =>
      match c, rest with
      | "%"%char, String k rest' =>
          match k, args with
          | "s"%char, ArgS s :: args' => s +:+ ksprintf rest' args'
          | "d"%char, ArgD z :: args' => pretty z +:+ ksprintf rest' args'
          | _, _ => String c (String k (ksprintf rest' args))
          end
      | _, _ => String c (ksprintf rest args)
      end
  end.

(** ** The module's data *)

Definition DEVICE_NAME : string := "modbus_dev".
Definition CLASS_NAME : string := "modbus_class".
Definition firstOfMinorNum : Z := 0.
Definition countOfMinorNum : Z := 1.

(** [struct private_data] *)
Record struct_private_data := { tempPlaceholder : Z }.

(** What [kzalloc] hands out: every field zero. *)
Definition zeroed_private_data : struct_private_data :=
  {| tempPlaceholder := 0 |}.

(** The one field of [struct file] the module touches. *)
Record struct_file := { private_data : kptr }.

(** The entry points a [file_operations] table can name. *)
Inductive handler :=
| h_modbus_dev_read
| h_modbus_dev_write
| h_modbus_dev_open
| h_modbus_dev_close
| h_modbus_dev_ioctl.

#[global] Instance handler_eq_dec : EqDecision handler.
Proof. solve_decision. Defined.

Record file_operations := {
  fop_read : option handler;
  fop_write : option handler;
  fop_open : option handler;
  fop_release : option handler;
  fop_unlocked_ioctl : option handler
}.

#[global] Instance file_operations_eq_dec : EqDecision file_operations.
Proof. solve_decision. Defined.

Definition modbus_dev_fops : file_operations :=
  {| fop_read := Some h_modbus_dev_read;
     fop_write := Some h_modbus_dev_write;
     fop_open := Some h_modbus_dev_open;
     fop_release := Some h_modbus_dev_close;
     fop_unlocked_ioctl := Some h_modbus_dev_ioctl |}.

(** The static variables of the module. *)
Record module_state := {
  my_dev : kptr;
  firstAssignedDevNum : Z;
  modbusClass : kptr;
  modbusDevice : kptr
}.

(** ** Device-model calls and the resources behind them *)

(** A call into the character-device / device-model API, with its arguments
    and, for the fallible ones, what the kernel answered. *)
Inductive kevent :=
| EvAllocChrdevRegion (baseminor count : Z) (name : string) (res : outcome Z)
| EvCdevAlloc (res : kptr)
| EvCdevInit (cdev : kptr) (fops : file_operations)
| EvCdevAdd (cdev : kptr) (dev count : Z) (res : outcome unit)
| EvCdevDel (cdev : kptr)
| EvClassCreate (name : string) (res : kptr)
| EvClassUnregister (cls : kptr)
| EvClassDestroy (cls : kptr)
| EvDeviceCreate (cls : kptr) (dev : Z) (fmt : string) (args : list fmt_arg)
    (res : kptr)
| EvDeviceDestroy (cls : kptr) (dev : Z)
| EvUnregisterChrdevRegion (dev count : Z).

(** What the kernel holds on behalf of the module. *)
Inductive kres :=
| ResRegion (dev count : Z)
| ResCdev (cdev : kptr)
| ResCdevMap (cdev : kptr) (dev count : Z)
| ResClass (cls : kptr)
| ResDevice (cls : kptr) (dev : Z) (name : string).

#[global] Instance kres_eq_dec : EqDecision kres.
Proof. solve_decision. Defined.

(** The four resources of the lifecycle, in the vocabulary of the
    specification: the region is the identity, the cdev the dispatch
    registration, the device the node. *)
Inductive resource :=
| DeviceIdentity
| DispatchRegistration
| DeviceClass
| DeviceNode.

#[global] Instance resource_eq_dec : EqDecision resource.
Proof. solve_decision. Defined.

Definition res_of_cdev (p : kptr) (r : kres) : bool :=
  match r with
  | ResCdev q | ResCdevMap q _ _ => bool_decide (q = p)
  | _ => false
  end.

Definition res_of_region (dev count : Z) (r : kres) : bool :=
  match r with
  | ResRegion d c => bool_decide (d = dev) && bool_decide (c = count)
  | _ => false
  end.

Definition res_of_class (p : kptr) (r : kres) : bool :=
  match r with
  | ResClass q => bool_decide (q = p)
  | _ => false
  end.

Definition res_of_device (cls : kptr) (dev : Z) (r : kres) : bool :=
  match r with
  | ResDevice c d _ => bool_decide (c = cls) && bool_decide (d = dev)
  | _ => false
  end.

Definition drop_res (sel : kres -> bool) (held : list kres) : list kres :=
  List.filter (fun r => negb (sel r)) held.

(** The effect of one call on what the kernel holds: a successful
    acquisition is appended, a release removes what it names. *)
Definition kernel_step (held : list kres) (ev : kevent) : list kres :=
  match ev with
  | EvAllocChrdevRegion baseminor count _ (Ok major) =>
      held ++ [ResRegion (MKDEV major baseminor) count]
  | EvAllocChrdevRegion _ _ _ (Err _) => held
  | EvCdevAlloc (Ptr a) => held ++ [ResCdev (Ptr a)]
  | EvCdevAlloc _ => held
  | EvCdevInit _ _ => held
  | EvCdevAdd cdev dev count (Ok _) => held ++ [ResCdevMap cdev dev count]
  | EvCdevAdd _ _ _ (Err _) => held
  | EvCdevDel cdev => drop_res (res_of_cdev cdev) held
  | EvClassCreate _ (Ptr a) => held ++ [ResClass (Ptr a)]
  | EvClassCreate _ _ => held
  | EvClassUnregister cls | EvClassDestroy cls =>
      drop_res (res_of_class cls) held
  | EvDeviceCreate cls dev fmt args (Ptr a) =>
      held ++ [ResDevice cls dev (ksprintf fmt args)]
  | EvDeviceCreate _ _ _ _ _ => held
  | EvDeviceDestroy cls dev => drop_res (res_of_device cls dev) held
  | EvUnregisterChrdevRegion dev count =>
      drop_res (res_of_region dev count) held
  end.

Definition held_from (held : list kres) (tr : list kevent) : list kres :=
  foldl kernel_step held tr.

Definition held_after (tr : list kevent) : list kres := held_from [] tr.

(** The resource a successful acquisition provides.  The dispatch
    registration exists once [cdev_add] has succeeded. *)
Definition acquired (ev : kevent) : option resource :=
  match ev with
  | EvAllocChrdevRegion _ _ _ (Ok _) => Some DeviceIdentity
  | EvCdevAdd _ _ _ (Ok _) => Some DispatchRegistration
  | EvClassCreate _ (Ptr _) => Some DeviceClass
  | EvDeviceCreate _ _ _ _ (Ptr _) => Some DeviceNode
  | _ => None
  end.

(** The resource a release call is aimed at. *)
Definition released (ev : kevent) : option resource :=
  match ev with
  | EvCdevDel _ => Some DispatchRegistration
  | EvClassUnregister _ | EvClassDestroy _ => Some DeviceClass
  | EvDeviceDestroy _ _ => Some DeviceNode
  | EvUnregisterChrdevRegion _ _ => Some DeviceIdentity
  | _ => None
  end.

Definition acquisitions (tr : list kevent) : list resource :=
  omap acquired tr.

Definition release_calls (tr : list kevent) : list resource :=
  omap released tr.

(** Each element once, at the place of its first occurrence. *)
Fixpoint first_occurrences (l : list resource) : list resource :=
  match l with
  | [] => []
  | r :: l' => r :: List.filter (fun r' => negb (bool_decide (r' = r)))
                      (first_occurrences l')
  end.

(** The order in which the resources are released. *)
Definition release_order (tr : list kevent) : list resource :=
  first_occurrences (release_calls tr).

(** A release call hits something the kernel holds. *)
Definition release_target_held (held : list kres) (ev : kevent) : bool :=
  match ev with
  | EvCdevDel cdev => existsb (res_of_cdev cdev) held
  | EvClassUnregister cls | EvClassDestroy cls =>
      existsb (res_of_class cls) held
  | EvDeviceDestroy cls dev => existsb (res_of_device cls dev) held
  | EvUnregisterChrdevRegion dev count =>
      existsb (res_of_region dev count) held
  | _ => true
  end.

(** Every release call of [tr], run from [held], hits a held resource. *)
Fixpoint releases_only_held (held : list kres) (tr : list kevent) : bool :=
  match tr with
  | [] => true
  | ev :: tr' =>
      release_target_held held ev
      && releases_only_held (kernel_step held ev) tr'
  end.

(** A dispatch table is registered ([cdev_add] succeeded) for [dev]. *)
Definition dispatch_registered (dev : Z) (held : list kres) : bool :=
  existsb (fun r => match r with
                    | ResCdevMap _ d _ => bool_decide (d = dev)
                    | _ => false
                    end) held.

(** ** The world the module runs in *)

Inductive loglevel := KERN_ERR | KERN_INFO.

Record printk_record := {
  pk_level : loglevel;
  pk_fmt : string;
  pk_args : list fmt_arg
}.

Record world := {
  globals : module_state;
  (** device-model calls so far, oldest first *)
  ktrace : list kevent;
  klog : list printk_record;
  (** live [struct private_data] allocations, by address *)
  slab : gmap positive struct_private_data;
  (** [struct file] objects, by address *)
  files : gmap positive struct_file;
  (** user-space memory, by address *)
  umem : gmap Z Byte.byte;
  (** [loff_t] cells, by address *)
  loffs : gmap positive Z
}.

(** The answers of the kernel to the fallible calls of the module. *)
Record kernel_env := {
  (** the major number [alloc_chrdev_region] picks, or its errno *)
  env_alloc_chrdev_region : outcome Z;
  (** the address [cdev_alloc] returns; [None]: out of memory *)
  env_cdev_alloc : option positive;
  env_cdev_add : outcome unit;
  (** the address of the new class, or the errno in the pointer *)
  env_class_create : outcome positive;
  (** the address of the new device, or the errno in the pointer *)
  env_device_create : outcome positive;
  (** whether [kzalloc] finds memory *)
  env_kzalloc : bool
}.

(** The state of a freshly loaded module: the static initialisers, and
    nothing done yet. *)
Definition boot_globals : module_state :=
  {| my_dev := NULL; firstAssignedDevNum := 0;
     modbusClass := NULL; modbusDevice := NULL |}.

Definition boot_world : world :=
  {| globals := boot_globals; ktrace := []; klog := [];
     slab := ∅; files := ∅; umem := ∅; loffs := ∅ |}.

Definition with_globals (g : module_state) (w : world) : world :=
  {| globals := g; ktrace := ktrace w; klog := klog w; slab := slab w;
     files := files w; umem := umem w; loffs := loffs w |}.

Definition with_ktrace (tr : list kevent) (w : world) : world :=
  {| globals := globals w; ktrace := tr; klog := klog w; slab := slab w;
     files := files w; umem := umem w; loffs := loffs w |}.

Definition with_klog (l : list printk_record) (w : world) : world :=
  {| globals := globals w; ktrace := ktrace w; klog := l; slab := slab w;
     files := files w; umem := umem w; loffs := loffs w |}.

Definition with_slab (s : gmap positive struct_private_data) (w : world)
  : world :=
  {| globals := globals w; ktrace := ktrace w; klog := klog w; slab := s;
     files := files w; umem := umem w; loffs := loffs w |}.

Definition with_files (fs : gmap positive struct_file) (w : world) : world :=
  {| globals := globals w; ktrace := ktrace w; klog := klog w; slab := slab w;
     files := fs; umem := umem w; loffs := loffs w |}.

(** ** The monad: state, and a fault for a load or store through a pointer
       that refers to no object *)

Definition kernel (A : Type) : Type := world -> option (A * world).

#[global] Instance kernel_ret : MRet kernel :=
  fun A (a : A) (w : world) => Some (a, w).

#[global] Instance kernel_bind : MBind kernel :=
  fun A B (k : A -> kernel B) (m : kernel A) (w : world) =>
    match m w with
    | Some (a, w') => k a w'
    | None => None
    end.

Definition fault {A} : kernel A := fun _ => None.

Definition gets {A} (f : world -> A) : kernel A := fun w => Some (f w, w).

Definition modify (f : world -> world) : kernel unit :=
  fun w => Some (tt, f w).

(** The device-model calls a run of [m] from [w] adds to the trace. *)
Definition emitted (w w' : world) : list kevent :=
  drop (length (ktrace w)) (ktrace w').

(** *** Loads and stores of the module's variables *)

Definition load_my_dev : kernel kptr := gets (fun w => my_dev (globals w)).
Definition load_firstAssignedDevNum : kernel Z :=
  gets (fun w => firstAssignedDevNum (globals w)).
Definition load_modbusClass : kernel kptr :=
  gets (fun w => modbusClass (globals w)).
Definition load_modbusDevice : kernel kptr :=
  gets (fun w => modbusDevice (globals w)).

Definition store_my_dev (p : kptr) : kernel unit :=
  modify (fun w =>
    let g := globals w in
    with_globals {| my_dev := p;
                    firstAssignedDevNum := firstAssignedDevNum g;
                    modbusClass := modbusClass g;
                    modbusDevice := modbusDevice g |} w).

Definition store_firstAssignedDevNum (d : Z) : kernel unit :=
  modify (fun w =>
    let g := globals w in
    with_globals {| my_dev := my_dev g;
                    firstAssignedDevNum := d;
                    modbusClass := modbusClass g;
                    modbusDevice := modbusDevice g |} w).

Definition store_modbusClass (p : kptr) : kernel unit :=
  modify (fun w =>
    let g := globals w in
    with_globals {| my_dev := my_dev g;
                    firstAssignedDevNum := firstAssignedDevNum g;
                    modbusClass := p;
                    modbusDevice := modbusDevice g |} w).

Definition store_modbusDevice (p : kptr) : kernel unit :=
  modify (fun w =>
    let g := globals w in
    with_globals {| my_dev := my_dev g;
                    firstAssignedDevNum := firstAssignedDevNum g;
                    modbusClass := modbusClass g;
                    modbusDevice := p |} w).

(** [file->private_data], as a load and as a store. *)
Definition load_private_data (file : positive) : kernel kptr :=
  fun w => match files w !! file with
           | Some f => Some (private_data f, w)
           | None => None
           end.

Definition store_private_data (file : positive) (p : kptr) : kernel unit :=
  fun w => match files w !! file with
           | Some _ =>
               Some (tt, with_files (<[file := {| private_data := p |}]>
                                       (files w)) w)
           | None => None
           end.

(** *** The kernel services the module calls *)

Definition printk (l : loglevel) (fmt : string) (args : list fmt_arg)
  : kernel unit :=
  modify (fun w =>
    with_klog (klog w ++ [{| pk_level := l; pk_fmt := fmt;
                             pk_args := args |}]) w).

Definition pr_err (fmt : string) (args : list fmt_arg) : kernel unit :=
  printk KERN_ERR fmt args.

Definition pr_info (fmt : string) (args : list fmt_arg) : kernel unit :=
  printk KERN_INFO fmt args.

Definition dev_info (dev : kptr) (fmt : string) (args : list fmt_arg)
  : kernel unit :=
  printk KERN_INFO fmt args.

Definition kcall (ev : kevent) : kernel unit :=
  modify (fun w => with_ktrace (ktrace w ++ [ev]) w).

(** [kzalloc(sizeof(struct private_data), GFP_KERNEL)]: a zeroed object at
    an address that is not in use, or [NULL]. *)
Definition kzalloc (env : kernel_env) : kernel kptr :=
  fun w =>
    if env_kzalloc env then
      let a := fresh (dom (slab w)) in
      Some (Ptr a, with_slab (<[a := zeroed_private_data]> (slab w)) w)
    else Some (NULL, w).

Definition kfree (p : kptr) : kernel unit :=
  modify (fun w =>
    match p with
    | Ptr a => with_slab (delete a (slab w)) w
    | _ => w
    end).

(** [alloc_chrdev_region(dev, baseminor, count, name)]; [store_dev] is the
    store through [dev], done on success only. *)
Definition alloc_chrdev_region (env : kernel_env)
    (store_dev : Z -> kernel unit) (baseminor count : Z) (name : string)
  : kernel Z :=
  let res := env_alloc_chrdev_region env in
  kcall (EvAllocChrdevRegion baseminor count name res);;
  match res with
  | Ok major => store_dev (MKDEV major baseminor);; mret 0
  | Err errno => mret (Z.neg errno)
  end.

Definition unregister_chrdev_region (dev count : Z) : kernel unit :=
  kcall (EvUnregisterChrdevRegion dev count).

Definition cdev_alloc (env : kernel_env) : kernel kptr :=
  let p := match env_cdev_alloc env with Some a => Ptr a | None => NULL end in
  kcall (EvCdevAlloc p);; mret p.

Definition cdev_init (cdev : kptr) (fops : file_operations) : kernel unit :=
  kcall (EvCdevInit cdev fops).

Definition cdev_add (env : kernel_env) (cdev : kptr) (dev count : Z)
  : kernel Z :=
  let res := env_cdev_add env in
  kcall (EvCdevAdd cdev dev count res);;
  mret (match res with Ok _ => 0 | Err errno => Z.neg errno end).

Definition cdev_del (cdev : kptr) : kernel unit :=
  kcall (EvCdevDel cdev).

Definition class_create (env : kernel_env) (name : string) : kernel kptr :=
  let p := match env_class_create env with
           | Ok a => Ptr a
           | Err errno => ErrPtr errno
           end in
  kcall (EvClassCreate name p);; mret p.

Definition class_unregister (cls : kptr) : kernel unit :=
  kcall (EvClassUnregister cls).

Definition class_destroy (cls : kptr) : kernel unit :=
  kcall (EvClassDestroy cls).

Definition device_create (env : kernel_env) (cls : kptr) (dev : Z)
    (fmt : string) (args : list fmt_arg) : kernel kptr :=
  let p := match env_device_create env with
           | Ok a => Ptr a
           | Err errno => ErrPtr errno
           end in
  kcall (EvDeviceCreate cls dev fmt args p);; mret p.

Definition device_destroy (cls : kptr) (dev : Z) : kernel unit :=
  kcall (EvDeviceDestroy cls dev).

(** ** The module *)

Definition modbus_dev_open (env : kernel_env) (inode file : positive)
  : kernel Z :=
  myPrivateData ← kzalloc env;
  if is_null myPrivateData then
    pr_err "Failed to allocate memory for private data.\n" [];;
    mret (- ENOMEM)
  else
    store_private_data file myPrivateData;;
    pr_info "modbus_dev_open() is called.\n" [];;
    mret 0.

Definition modbus_dev_close (inode file : positive) : kernel Z :=
  myPrivateData ← load_private_data file;
  if is_null myPrivateData then
    pr_err "Failed to access memory for private data.\n" [];;
    mret (- ENOMEM)
  else
    kfree myPrivateData;;
    pr_info "modbus_dev_close() is called.\n" [];;
    mret 0.

Definition modbus_dev_ioctl (file : positive) (cmd arg : Z) : kernel Z :=
  myPrivateData ← load_private_data file;
  if is_null myPrivateData then
    pr_err "Failed to access memory for private data.\n" [];;
    mret (- ENOMEM)
  else
    pr_info "modbus_dev_ioctl() is called. cmd = %d, arg = %ld\n"
      [ArgD cmd; ArgD arg];;
    mret 0.

Definition modbus_dev_read (file : positive) (buf lbuf : Z) (ppos : positive)
  : kernel Z :=
  myPrivateData ← load_private_data file;
  if is_null myPrivateData then
    pr_err "Failed to access memory for private data.\n" [];;
    mret (- ENOMEM)
  else
    pr_info "modbus_dev_read() is called.\n" [];;
    mret 0.

Definition modbus_dev_write (file : positive) (buf lbuf : Z) (ppos : positive)
  : kernel Z :=
  myPrivateData ← load_private_data file;
  if is_null myPrivateData then
    pr_err "Failed to access memory for private data.\n" [];;
    mret (- ENOMEM)
  else
    pr_info "modbus_write_read() is called.\n" [];;
    mret 0.

Definition modbus_dev_init (env : kernel_env) : kernel Z :=
  pr_info "modbus_dev_init() is called.\n" [];;
  ret ← alloc_chrdev_region env store_firstAssignedDevNum
          firstOfMinorNum countOfMinorNum DEVICE_NAME;
  if ret <? 0 then
    pr_err "Failed to allocate device region.\n" [];;
    mret ret
  else
    p ← cdev_alloc env;
    store_my_dev p;;
    dev ← load_my_dev;
    if is_null dev then
      pr_err "Failed to allocate memory for device structure.\n" [];;
      mret (-1)
    else
      dev ← load_my_dev;
      cdev_init dev modbus_dev_fops;;
      dev ← load_my_dev;
      num ← load_firstAssignedDevNum;
      ret ← cdev_add env dev num countOfMinorNum;
      if ret <? 0 then
        pr_err "Unable to add cdev\n" [];;
        dev ← load_my_dev;
        cdev_del dev;;
        num ← load_firstAssignedDevNum;
        unregister_chrdev_region num countOfMinorNum;;
        mret ret
      else
        c ← class_create env CLASS_NAME;
        store_modbusClass c;;
        cls ← load_modbusClass;
        if IS_ERR cls then
          pr_err "Failed to register device class.\n" [];;
          dev ← load_my_dev;
          cdev_del dev;;
          num ← load_firstAssignedDevNum;
          unregister_chrdev_region num countOfMinorNum;;
          cls ← load_modbusClass;
          mret (PTR_ERR cls)
        else
          cls ← load_modbusClass;
          num ← load_firstAssignedDevNum;
          d ← device_create env cls num "%s%d"
                [ArgS DEVICE_NAME; ArgD (MINOR num)];
          store_modbusDevice d;;
          node ← load_modbusDevice;
          if IS_ERR node then
            pr_info "Failed to create the device.\n" [];;
            cls ← load_modbusClass;
            class_destroy cls;;
            dev ← load_my_dev;
            cdev_del dev;;
            num ← load_firstAssignedDevNum;
            unregister_chrdev_region num countOfMinorNum;;
            node ← load_modbusDevice;
            mret (PTR_ERR node)
          else
            node ← load_modbusDevice;
            num ← load_firstAssignedDevNum;
            dev_info node
              "Succeeded in registering character device %s, Major=%d, Minor=%d.\n"
              [ArgS DEVICE_NAME; ArgD (MAJOR num); ArgD (MINOR num)];;
            mret 0.

Definition modbus_dev_exit : kernel unit :=
  node ← load_modbusDevice;
  dev_info node "Device unregistered.\n" [];;
  dev ← load_my_dev;
  (if is_null dev then mret tt
   else dev ← load_my_dev; cdev_del dev);;
  cls ← load_modbusClass;
  num ← load_firstAssignedDevNum;
  device_destroy cls num;;
  cls ← load_modbusClass;
  class_unregister cls;;
  cls ← load_modbusClass;
  class_destroy cls;;
  num ← load_firstAssignedDevNum;
  unregister_chrdev_region num countOfMinorNum.

(** The device-model calls [modbus_dev_exit] makes from [w]. *)
Definition exit_calls (w : world) : list kevent :=
  match modbus_dev_exit w with
  | Some (_, w') => emitted w w'
  | None => []
  end.

(** A kernel that grants everything. *)
Definition env_all_ok (major : Z) (cdev cls node : positive) : kernel_env :=
  {| env_alloc_chrdev_region := Ok major;
     env_cdev_alloc := Some cdev;
     env_cdev_add := Ok tt;
     env_class_create := Ok cls;
     env_device_create := Ok node;
     env_kzalloc := true |}.

(** Every device node the kernel holds sits on a device number for which a
    dispatch table is registered. *)
Definition node_behind_dispatch (held : list kres) : bool :=
  forallb (fun r => match r with
                    | ResDevice _ dev _ => dispatch_registered dev held
                    | _ => true
                    end) held.

(** [w'] differs from [w] in the kernel log at most. *)
Definition unchanged_but_log (w w' : world) : Prop :=
  globals w' = globals w /\ ktrace w' = ktrace w /\ slab w' = slab w
  /\ files w' = files w /\ umem w' = umem w /\ loffs w' = loffs w.

(** ** Concrete kernels and worlds *)

Definition sample_env : kernel_env := env_all_ok 250 5 6 7.

(** [cdev_alloc] finds no memory. *)
Definition sample_env_no_cdev : kernel_env :=
  {| env_alloc_chrdev_region := Ok 250;
     env_cdev_alloc := None;
     env_cdev_add := Ok tt;
     env_class_create := Ok 6%positive;
     env_device_create := Ok 7%positive;
     env_kzalloc := true |}.

(** [class_create] fails with [-ENOMEM]. *)
Definition sample_env_no_class : kernel_env :=
  {| env_alloc_chrdev_region := Ok 250;
     env_cdev_alloc := Some 5%positive;
     env_cdev_add := Ok tt;
     env_class_create := Err 12%positive;
     env_device_create := Ok 7%positive;
     env_kzalloc := true |}.

(** [kzalloc] finds no memory. *)
Definition sample_env_no_memory : kernel_env :=
  {| env_alloc_chrdev_region := Ok 250;
     env_cdev_alloc := Some 5%positive;
     env_cdev_add := Ok tt;
     env_class_create := Ok 6%positive;
     env_device_create := Ok 7%positive;
     env_kzalloc := false |}.

Definition world_after_init (env : kernel_env) (w : world) : world :=
  match modbus_dev_init env w with
  | Some (_, w') => w'
  | None => w
  end.

(** The world after a successful load. *)
Definition live_world : world :=
  Eval vm_compute in world_after_init sample_env boot_world.

(** The world after a load that failed at class creation. *)
Definition rolled_back_world : world :=
  Eval vm_compute in world_after_init sample_env_no_class boot_world.

(** One file object, nothing attached. *)
Definition closed_file_world : world :=
  with_files {[ 1%positive := {| private_data := NULL |} ]} boot_world.

(** One file object with a zeroed state attached at address 7. *)
Definition open_file_world : world :=
  with_slab {[ 7%positive := zeroed_private_data ]}
    (with_files {[ 1%positive := {| private_data := Ptr 7 |} ]} boot_world).

(** [device_create] was called in the run that made the calls [tr]. *)
Definition reached_device_create (tr : list kevent) : bool :=
  existsb (fun ev => match ev with
                     | EvDeviceCreate _ _ _ _ _ => true
                     | _ => false
                     end) tr.

(** [alloc_chrdev_region] fails with [-EBUSY]. *)
Definition sample_env_no_region : kernel_env :=
  {| env_alloc_chrdev_region := Err 16%positive;
     env_cdev_alloc := Some 5%positive;
     env_cdev_add := Ok tt;
     env_class_create := Ok 6%positive;
     env_device_create := Ok 7%positive;
     env_kzalloc := true |}.

(** Two file objects, nothing attached. *)
Definition two_files_world : world :=
  with_files {[ 1%positive := {| private_data := NULL |};
                2%positive := {| private_data := NULL |} ]} boot_world.

(** Two file objects, each with a state of its own. *)
Definition two_open_files_world : world :=
  with_slab {[ 7%positive := zeroed_private_data;
               8%positive := zeroed_private_data ]}
    (with_files {[ 1%positive := {| private_data := Ptr 7 |};
                   2%positive := {| private_data := Ptr 8 |} ]} boot_world).

(** A successful load in a world that has one file object. *)
Definition live_file_world : world :=
  Eval vm_compute in world_after_init sample_env closed_file_world.

(** ** Reasoning support *)

Arguments MKDEV : simpl never.
Arguments MINOR : simpl never.
Arguments MAJOR : simpl never.
Arguments emitted : simpl never.

Lemma emitted_app w w' evs :
  ktrace w' = ktrace w ++ evs -> emitted w w' = evs.
Proof. unfold emitted. intros ->. apply drop_app_length. Qed.

Lemma MINOR_MKDEV ma mi : 0 <= mi < 2 ^ MINORBITS -> MINOR (MKDEV ma mi) = mi.
Proof.
  intros Hmi. unfold MINOR, MKDEV, MINORMASK.
  rewrite Z.land_lor_distr_l, !Z.land_ones by (unfold MINORBITS; lia).
  rewrite Z.shiftl_mul_pow2 by (unfold MINORBITS; lia).
  rewrite Z.mod_mul by (unfold MINORBITS; lia).
  rewrite Z.mod_small by lia. apply Z.lor_0_l.
Qed.

Lemma string_app_empty_r (s : string) : s +:+ "" = s.
Proof.
  induction s as [|c s IH]; [reflexivity |].
  change (String c (s +:+ "") = String c s). by rewrite IH.
Qed.

(** The text [ksprintf] produces for the format of the node name. *)
Lemma ksprintf_s_d (s : string) (z : Z) :
  ksprintf "%s%d" [ArgS s; ArgD z] = s +:+ pretty z.
Proof. cbn [ksprintf]. by rewrite string_app_empty_r. Qed.

Lemma prefix_cons_cases {A} (pre : list A) x l :
  pre `prefix_of` x :: l ->
  pre = [] \/ exists pre', pre = x :: pre' /\ pre' `prefix_of` l.
Proof.
  destruct pre as [|y pre']; [by left |]. intros H. right. exists pre'.
  pose proof (prefix_cons_inv_1 _ _ _ _ H) as ->.
  split; [done |]. by eapply prefix_cons_inv_2.
Qed.

Lemma unchanged_but_log_with_klog l w : unchanged_but_log w (with_klog l w).
Proof. repeat split. Qed.

(** Unfolds the monad and the kernel services, leaving the final world. *)
Ltac run :=
  unfold alloc_chrdev_region, unregister_chrdev_region, cdev_alloc,
    cdev_init, cdev_add, cdev_del, class_create, class_unregister,
    class_destroy, device_create, device_destroy, kzalloc, kfree,
    load_private_data, store_private_data,
    load_my_dev, load_firstAssignedDevNum, load_modbusClass,
    load_modbusDevice, store_my_dev, store_firstAssignedDevNum,
    store_modbusClass, store_modbusDevice, dev_info, pr_err, pr_info,
    printk, kcall, gets, modify, mbind, kernel_bind, mret, kernel_ret;
  cbn.

(** Runs a handler on a file object known by [H]. *)
Ltac handler H := run; rewrite H; cbn.

(** Brings a trace built by successive calls to the form [old ++ new]. *)
Ltac trace_shape := cbn; rewrite <- ?app_assoc; cbn [app]; try reflexivity.

(** Evaluates the tests a ledger makes on symbolic handles. *)
Ltac ledger :=
  repeat first
    [ progress cbn
    | rewrite bool_decide_eq_true_2 by reflexivity
    | rewrite bool_decide_eq_false_2 by discriminate ].

(** One goal per prefix of a list given element by element. *)
Ltac each_prefix H :=
  first
    [ apply prefix_nil_inv in H; subst
    | apply prefix_cons_cases in H;
      destruct H as [-> | (? & -> & H)]; [ | each_prefix H ] ].

(** ** Initialize *)

(** Wherever else [modbus_dev_init] fails, the kernel holds nothing of the
    module afterwards. *)
Lemma modbus_dev_init_rollback_elsewhere env w ret w' :
  modbus_dev_init env w = Some (ret, w') ->
  ret <> 0 ->
  is_Some (env_cdev_alloc env)
  \/ (exists errno, env_alloc_chrdev_region env = Err errno) ->
  held_after (emitted w w') = [].
Proof.
  destruct env as [[major|e1] [cdev|] [[]|e2] [cls|e3] [node|e4] kz];
    unfold modbus_dev_init; run; intros [= <- <-] Hret Hcase;
    try congruence;
    try (destruct Hcase as [[? [=]] | [? [=]]]; fail);
    erewrite emitted_app by trace_shape; ledger; reflexivity.
Qed.

(** C1, at the step the code gets wrong: when [alloc_chrdev_region] has
    succeeded and [cdev_alloc] returns [NULL], [modbus_dev_init] returns -1
    after these two calls only; it makes no release call, and the device
    number region it acquired is still held. *)
Theorem modbus_dev_init_cdev_alloc_failure_leaks_region env w major :
  env_alloc_chrdev_region env = Ok major ->
  env_cdev_alloc env = None ->
  exists w',
    modbus_dev_init env w = Some (-1, w')
    /\ emitted w w' =
         [EvAllocChrdevRegion firstOfMinorNum countOfMinorNum DEVICE_NAME
            (Ok major);
          EvCdevAlloc NULL]
    /\ release_calls (emitted w w') = []
    /\ held_after (emitted w w') =
         [ResRegion (MKDEV major firstOfMinorNum) countOfMinorNum].
Proof.
  intros Hregion Hcdev. unfold modbus_dev_init. run.
  rewrite Hregion, Hcdev. cbn.
  eexists. split; [reflexivity |].
  erewrite emitted_app by trace_shape. auto.
Qed.

Lemma modbus_dev_init_cdev_alloc_failure_leaks_region_witness :
  env_alloc_chrdev_region sample_env_no_cdev = Ok 250
  /\ env_cdev_alloc sample_env_no_cdev = None
  /\ exists w',
       modbus_dev_init sample_env_no_cdev boot_world = Some (-1, w')
       /\ emitted boot_world w' =
            [EvAllocChrdevRegion firstOfMinorNum countOfMinorNum DEVICE_NAME
               (Ok 250);
             EvCdevAlloc NULL]
       /\ release_calls (emitted boot_world w') = []
       /\ held_after (emitted boot_world w') =
            [ResRegion (MKDEV 250 firstOfMinorNum) countOfMinorNum].
Proof.
  split; [reflexivity |]. split; [reflexivity |].
  apply (modbus_dev_init_cdev_alloc_failure_leaks_region
           sample_env_no_cdev boot_world 250); reflexivity.
Defined.

(** C8: whatever the kernel answers, [modbus_dev_init] returns, and what it
    acquired is an initial part of identity, dispatch registration, class,
    node, all four exactly when it returns 0; at every point of its run a
    node the kernel holds sits on a device number with a registered dispatch
    table.  When it returns 0 the calls are the six acquisitions below: a
    region of one minor number, the cdev added on the number of that region,
    the class, and the node on the same number, named by the device name
    followed by the minor number in decimal. *)
Theorem modbus_dev_init_acquisition_order env w :
  exists ret w',
    modbus_dev_init env w = Some (ret, w')
    /\ acquisitions (emitted w w')
         `prefix_of`
         [DeviceIdentity; DispatchRegistration; DeviceClass; DeviceNode]
    /\ (ret = 0 <->
        acquisitions (emitted w w') =
          [DeviceIdentity; DispatchRegistration; DeviceClass; DeviceNode])
    /\ (forall pre, pre `prefix_of` emitted w w' ->
          node_behind_dispatch (held_after pre) = true)
    /\ (ret = 0 ->
        exists major cdev cls node,
          let dev := MKDEV major firstOfMinorNum in
          emitted w w' =
            [EvAllocChrdevRegion firstOfMinorNum 1 DEVICE_NAME (Ok major);
             EvCdevAlloc (Ptr cdev);
             EvCdevInit (Ptr cdev) modbus_dev_fops;
             EvCdevAdd (Ptr cdev) dev 1 (Ok tt);
             EvClassCreate CLASS_NAME (Ptr cls);
             EvDeviceCreate (Ptr cls) dev "%s%d"
               [ArgS DEVICE_NAME; ArgD (MINOR dev)] (Ptr node)]
          /\ held_after (emitted w w') =
               [ResRegion dev 1; ResCdev (Ptr cdev);
                ResCdevMap (Ptr cdev) dev 1; ResClass (Ptr cls);
                ResDevice (Ptr cls) dev
                  (DEVICE_NAME +:+ pretty (MINOR dev))]).
Proof.
  destruct env as [[major|e1] [cdev|] [[]|e2] [cls|e3] [node|e4] kz];
    unfold modbus_dev_init; run;
    do 2 eexists; (split; [reflexivity |]);
    erewrite !emitted_app by trace_shape;
    (split; [cbn; by repeat first [apply prefix_nil | apply prefix_cons] |]);
    (split; [cbn; split; intros [=]; reflexivity |]);
    (split; [intros pre Hpre; each_prefix Hpre; ledger; reflexivity |]);
    intros [=].
  exists major, cdev, cls, node. split; [reflexivity |].
  unfold held_after, held_from. cbn [foldl kernel_step app].
  by rewrite ksprintf_s_d.
Qed.

Lemma modbus_dev_init_acquisition_order_witness :
  exists w',
    modbus_dev_init sample_env boot_world = Some (0, w')
    /\ acquisitions (emitted boot_world w') =
         [DeviceIdentity; DispatchRegistration; DeviceClass; DeviceNode]
    /\ node_behind_dispatch (held_after (emitted boot_world w')) = true.
Proof.
  destruct (modbus_dev_init_acquisition_order sample_env boot_world)
    as (ret & w' & Hrun & _ & Hall & Hinv & _).
  assert (ret = 0) as -> by (vm_compute in Hrun; congruence).
  exists w'. split; [exact Hrun |]. split; [by apply Hall |].
  by apply Hinv.
Defined.

(** The minor number of the region is the base minor the module asks for,
    so the node is called modbus_dev0 whatever major the kernel picks. *)
Lemma node_name_modbus_dev0 major :
  ksprintf "%s%d"
    [ArgS DEVICE_NAME; ArgD (MINOR (MKDEV major firstOfMinorNum))]
  = "modbus_dev0".
Proof.
  rewrite MINOR_MKDEV by (unfold firstOfMinorNum, MINORBITS; lia).
  reflexivity.
Qed.

(** ** Shutdown *)

(** C2 at one load: after the successful load of [sample_env] the first
    release of [modbus_dev_exit] is the dispatch registration, not the node,
    so the order of release is not node, class, dispatch registration,
    identity. *)
Lemma modbus_dev_exit_not_mirror_order :
  modbus_dev_init sample_env boot_world = Some (0, live_world)
  /\ release_calls (exit_calls live_world) =
       [DispatchRegistration; DeviceNode; DeviceClass; DeviceClass;
        DeviceIdentity]
  /\ release_order (exit_calls live_world) <>
       [DeviceNode; DeviceClass; DispatchRegistration; DeviceIdentity].
Proof. vm_compute. repeat split. discriminate. Qed.

(** C2, where the code departs from it: after every load that returned 0,
    [modbus_dev_exit] returns having made the five release calls below, the
    first of them [cdev_del]; its releases are therefore aimed at the
    dispatch registration, the node, the class (by two calls) and the
    identity, in that order, and not at the node first.  Before the unload
    the node sits on a registered dispatch table; once the first call of the
    unload is done the kernel still holds the node and no dispatch table is
    registered for its number.  The rollback inside [modbus_dev_init], on a
    failed [device_create], releases the class before the cdev. *)
Theorem modbus_dev_exit_drops_dispatch_before_node env w w1 :
  modbus_dev_init env w = Some (0, w1) ->
  exists w2,
    modbus_dev_exit w1 = Some (tt, w2)
    /\ emitted w1 w2 =
         [EvCdevDel (my_dev (globals w1));
          EvDeviceDestroy (modbusClass (globals w1))
            (firstAssignedDevNum (globals w1));
          EvClassUnregister (modbusClass (globals w1));
          EvClassDestroy (modbusClass (globals w1));
          EvUnregisterChrdevRegion (firstAssignedDevNum (globals w1))
            countOfMinorNum]
    /\ release_calls (emitted w1 w2) =
         [DispatchRegistration; DeviceNode; DeviceClass; DeviceClass;
          DeviceIdentity]
    /\ node_behind_dispatch (held_after (emitted w w1)) = true
    /\ node_behind_dispatch
         (held_after (emitted w w1 ++ [EvCdevDel (my_dev (globals w1))]))
       = false.
Proof.
  destruct env as [[major|e1] [cdev|] [[]|e2] [cls|e3] [node|e4] kz];
    unfold modbus_dev_init; run; intros [= <-].
  unfold modbus_dev_exit; run.
  eexists. split; [reflexivity |].
  erewrite !emitted_app by trace_shape.
  split; [reflexivity |]. split; [reflexivity |].
  split; ledger; reflexivity.
Qed.

Lemma modbus_dev_exit_drops_dispatch_before_node_witness :
  modbus_dev_init sample_env boot_world = Some (0, live_world)
  /\ exists w2,
       modbus_dev_exit live_world = Some (tt, w2)
       /\ emitted live_world w2 =
            [EvCdevDel (Ptr 5);
             EvDeviceDestroy (Ptr 6) (MKDEV 250 0);
             EvClassUnregister (Ptr 6);
             EvClassDestroy (Ptr 6);
             EvUnregisterChrdevRegion (MKDEV 250 0) 1]
       /\ release_calls (emitted live_world w2) =
            [DispatchRegistration; DeviceNode; DeviceClass; DeviceClass;
             DeviceIdentity]
       /\ node_behind_dispatch (held_after (emitted boot_world live_world))
          = true
       /\ node_behind_dispatch
            (held_after (emitted boot_world live_world ++ [EvCdevDel (Ptr 5)]))
          = false.
Proof.
  split; [reflexivity |].
  apply (modbus_dev_exit_drops_dispatch_before_node sample_env boot_world
           live_world).
  reflexivity.
Defined.

(** C3, as stated, fails.  On a module that was never initialised
    [modbus_dev_exit] calls [device_destroy], [class_unregister] and
    [class_destroy] on a [NULL] class and unregisters a region it never got;
    after a load that failed at class creation, and rolled back, it makes all
    five release calls, the class ones on the error pointer, though the
    kernel holds nothing. *)
Lemma modbus_dev_exit_releases_absent_resources :
  (exit_calls boot_world =
     [EvDeviceDestroy NULL 0; EvClassUnregister NULL; EvClassDestroy NULL;
      EvUnregisterChrdevRegion 0 1]
   /\ releases_only_held (held_after (ktrace boot_world))
        (exit_calls boot_world) = false)
  /\ (modbus_dev_init sample_env_no_class boot_world
        = Some (-12, rolled_back_world)
      /\ held_after (ktrace rolled_back_world) = []
      /\ exit_calls rolled_back_world =
           [EvCdevDel (Ptr 5);
            EvDeviceDestroy (ErrPtr 12) (MKDEV 250 0);
            EvClassUnregister (ErrPtr 12); EvClassDestroy (ErrPtr 12);
            EvUnregisterChrdevRegion (MKDEV 250 0) 1]
      /\ releases_only_held (held_after (ktrace rolled_back_world))
           (exit_calls rolled_back_world) = false).
Proof. vm_compute. repeat split. Qed.

(** C3, amended: [modbus_dev_exit] always returns; of its release calls
    only [cdev_del] is guarded, by a test of [my_dev] against [NULL];
    [device_destroy], [class_unregister], [class_destroy] and
    [unregister_chrdev_region] are called in every state, on whatever the
    module's variables hold, and the variables are left as they were. *)
Theorem modbus_dev_exit_guards_only_cdev w :
  exists w',
    modbus_dev_exit w = Some (tt, w')
    /\ globals w' = globals w
    /\ emitted w w' =
         (if is_null (my_dev (globals w)) then []
          else [EvCdevDel (my_dev (globals w))])
         ++ [EvDeviceDestroy (modbusClass (globals w))
               (firstAssignedDevNum (globals w));
             EvClassUnregister (modbusClass (globals w));
             EvClassDestroy (modbusClass (globals w));
             EvUnregisterChrdevRegion (firstAssignedDevNum (globals w))
               countOfMinorNum].
Proof.
  destruct w as [[[|a|e] num cls node] tr lg sl fs um lo];
    unfold modbus_dev_exit; run;
    (eexists; split; [reflexivity |]); (split; [reflexivity |]);
    erewrite emitted_app by trace_shape; reflexivity.
Qed.

(** ** Open *)

(** C6: on a file object, [modbus_dev_open] returns and leaves the module's
    variables, the device-model trace, user memory and file positions as
    they were.  When [kzalloc] fails it returns [-ENOMEM] with the
    allocations and the file objects unchanged; otherwise it returns 0, a
    zeroed state sits at an address that was free, and the private-data
    field of the file object holds that address. *)
Theorem modbus_dev_open_attaches_zeroed_state env inode file w f :
  files w !! file = Some f ->
  exists ret w',
    modbus_dev_open env inode file w = Some (ret, w')
    /\ globals w' = globals w /\ ktrace w' = ktrace w
    /\ umem w' = umem w /\ loffs w' = loffs w
    /\ if env_kzalloc env then
         exists a,
           slab w !! a = None
           /\ ret = 0
           /\ slab w' = <[a := zeroed_private_data]> (slab w)
           /\ files w' = <[file := {| private_data := Ptr a |}]> (files w)
       else
         ret = - ENOMEM /\ slab w' = slab w /\ files w' = files w.
Proof.
  intros Hfile. unfold modbus_dev_open. run.
  destruct (env_kzalloc env); cbn.
  - rewrite Hfile. do 2 eexists. split; [reflexivity |]. cbn.
    repeat split; try reflexivity.
    exists (fresh (dom (slab w))). repeat split.
    apply not_elem_of_dom, is_fresh.
  - do 2 eexists. split; [reflexivity |]. cbn. repeat split.
Qed.

Lemma modbus_dev_open_attaches_zeroed_state_witness :
  files closed_file_world !! 1%positive = Some {| private_data := NULL |}
  /\ exists ret w',
       modbus_dev_open sample_env 1 1 closed_file_world = Some (ret, w')
       /\ globals w' = globals closed_file_world
       /\ ktrace w' = ktrace closed_file_world
       /\ umem w' = umem closed_file_world
       /\ loffs w' = loffs closed_file_world
       /\ exists a,
            slab closed_file_world !! a = None
            /\ ret = 0
            /\ slab w' = <[a := zeroed_private_data]> (slab closed_file_world)
            /\ files w' = <[1%positive := {| private_data := Ptr a |}]>
                            (files closed_file_world).
Proof.
  split; [reflexivity |].
  apply (modbus_dev_open_attaches_zeroed_state sample_env 1 1
           closed_file_world {| private_data := NULL |}).
  reflexivity.
Defined.

(** ** The handlers that work on an opened descriptor *)

Section Descriptor.

Context (w : world) (file : positive) (f : struct_file).
Hypothesis Hfile : files w !! file = Some f.

(** C4, amended: with a state attached at address [a], [modbus_dev_close]
    returns 0 and releases the allocation at [a], and the file object is
    left as it was, its private-data field still holding [a]; with nothing
    attached it returns [-ENOMEM] and releases nothing. *)
Theorem modbus_dev_close_releases_and_keeps_pointer inode :
  (forall a, private_data f = Ptr a ->
     exists w',
       modbus_dev_close inode file w = Some (0, w')
       /\ slab w' = delete a (slab w)
       /\ files w' !! file = Some {| private_data := Ptr a |}
       /\ files w' = files w /\ globals w' = globals w
       /\ ktrace w' = ktrace w /\ umem w' = umem w /\ loffs w' = loffs w)
  /\ (private_data f = NULL ->
      exists w',
        modbus_dev_close inode file w = Some (- ENOMEM, w')
        /\ unchanged_but_log w w').
Proof.
  destruct f as [p]. cbn. split.
  - intros a ->. unfold modbus_dev_close. handler Hfile.
    eexists. split; [reflexivity |]. cbn. by rewrite Hfile.
  - intros ->. unfold modbus_dev_close. handler Hfile.
    eexists. split; [reflexivity |]. apply unchanged_but_log_with_klog.
Qed.

(** C5: with nothing attached to the file object, [modbus_dev_close],
    [modbus_dev_ioctl], [modbus_dev_read] and [modbus_dev_write] each return
    [-ENOMEM] and change nothing but the kernel log: no allocation is
    released, no object, user memory or file position is written, no
    device-model call is made. *)
Theorem handlers_without_state_fail_without_effect
    inode cmd arg buf lbuf ppos :
  private_data f = NULL ->
  (exists w', modbus_dev_close inode file w = Some (- ENOMEM, w')
              /\ unchanged_but_log w w')
  /\ (exists w', modbus_dev_ioctl file cmd arg w = Some (- ENOMEM, w')
                 /\ unchanged_but_log w w')
  /\ (exists w', modbus_dev_read file buf lbuf ppos w = Some (- ENOMEM, w')
                 /\ unchanged_but_log w w')
  /\ (exists w', modbus_dev_write file buf lbuf ppos w = Some (- ENOMEM, w')
                 /\ unchanged_but_log w w').
Proof.
  intros Hnull. destruct f as [p]. cbn in Hnull. subst p.
  unfold modbus_dev_close, modbus_dev_ioctl, modbus_dev_read,
    modbus_dev_write.
  handler Hfile.
  repeat split; eexists; (split; [reflexivity |]);
    apply unchanged_but_log_with_klog.
Qed.

(** C7: with a state attached, [modbus_dev_ioctl] returns 0 for every
    command and argument, and [modbus_dev_read] and [modbus_dev_write] return
    0 bytes for every buffer, length and position; none of them changes
    anything but the kernel log. *)
Theorem handlers_with_state_are_stubs cmd arg buf lbuf ppos :
  private_data f <> NULL ->
  (exists w', modbus_dev_ioctl file cmd arg w = Some (0, w')
              /\ unchanged_but_log w w')
  /\ (exists w', modbus_dev_read file buf lbuf ppos w = Some (0, w')
                 /\ unchanged_but_log w w')
  /\ (exists w', modbus_dev_write file buf lbuf ppos w = Some (0, w')
                 /\ unchanged_but_log w w').
Proof.
  intros Hstate. destruct f as [p]. cbn in Hstate.
  unfold modbus_dev_ioctl, modbus_dev_read, modbus_dev_write.
  handler Hfile.
  destruct p as [|a|e]; [done | |]; cbn;
    repeat split; eexists; (split; [reflexivity |]);
    apply unchanged_but_log_with_klog.
Qed.

(** C9: the status [modbus_dev_open] returns when [kzalloc] fails, on any
    file object in any world, and the status [modbus_dev_close],
    [modbus_dev_ioctl], [modbus_dev_read] and [modbus_dev_write] return when
    nothing is attached are one number, [-ENOMEM], that is -12. *)
Theorem alloc_failure_and_missing_state_share_errno
    env inode0 file0 w0 inode cmd arg buf lbuf ppos :
  env_kzalloc env = false ->
  private_data f = NULL ->
  - ENOMEM = -12
  /\ fst <$> modbus_dev_open env inode0 file0 w0 = Some (- ENOMEM)
  /\ fst <$> modbus_dev_close inode file w = Some (- ENOMEM)
  /\ fst <$> modbus_dev_ioctl file cmd arg w = Some (- ENOMEM)
  /\ fst <$> modbus_dev_read file buf lbuf ppos w = Some (- ENOMEM)
  /\ fst <$> modbus_dev_write file buf lbuf ppos w = Some (- ENOMEM).
Proof.
  intros Henv Hnull. destruct f as [p]. cbn in Hnull. subst p.
  unfold modbus_dev_open, modbus_dev_close, modbus_dev_ioctl,
    modbus_dev_read, modbus_dev_write.
  run. rewrite Henv, Hfile. cbn. repeat split.
Qed.

(** C10: with a state attached, [modbus_dev_read] and [modbus_dev_write]
    return with every file position, all of user memory, every attached
    state and every file object as before the call. *)
Theorem read_write_frame buf lbuf ppos :
  private_data f <> NULL ->
  (exists ret w',
     modbus_dev_read file buf lbuf ppos w = Some (ret, w')
     /\ loffs w' = loffs w /\ umem w' = umem w /\ slab w' = slab w
     /\ files w' = files w)
  /\ (exists ret w',
        modbus_dev_write file buf lbuf ppos w = Some (ret, w')
        /\ loffs w' = loffs w /\ umem w' = umem w /\ slab w' = slab w
        /\ files w' = files w).
Proof.
  intros Hstate. destruct f as [p]. cbn in Hstate.
  unfold modbus_dev_read, modbus_dev_write. handler Hfile.
  destruct p as [|a|e]; [done | |]; cbn;
    split; do 2 eexists; (split; [reflexivity |]); repeat split.
Qed.

End Descriptor.

(** C4, as stated, fails: closing the file object of [open_file_world]
    returns 0 and releases the state at address 7, and the private-data
    field of the file object still holds address 7. *)
Lemma modbus_dev_close_leaves_pointer_to_released_state :
  files open_file_world !! 1%positive = Some {| private_data := Ptr 7 |}
  /\ slab open_file_world !! 7%positive = Some zeroed_private_data
  /\ exists w',
       modbus_dev_close 1 1 open_file_world = Some (0, w')
       /\ slab w' !! 7%positive = None
       /\ files w' !! 1%positive = Some {| private_data := Ptr 7 |}.
Proof.
  split; [reflexivity |]. split; [reflexivity |].
  eexists. split; [reflexivity |]. split; reflexivity.
Qed.

Lemma modbus_dev_close_releases_and_keeps_pointer_witness :
  files open_file_world !! 1%positive = Some {| private_data := Ptr 7 |}
  /\ exists w',
       modbus_dev_close 1 1 open_file_world = Some (0, w')
       /\ slab w' = delete 7%positive (slab open_file_world)
       /\ files w' !! 1%positive = Some {| private_data := Ptr 7 |}
       /\ files w' = files open_file_world
       /\ globals w' = globals open_file_world
       /\ ktrace w' = ktrace open_file_world
       /\ umem w' = umem open_file_world
       /\ loffs w' = loffs open_file_world.
Proof.
  split; [reflexivity |].
  apply (modbus_dev_close_releases_and_keeps_pointer open_file_world 1
           {| private_data := Ptr 7 |} eq_refl 1).
  reflexivity.
Defined.

Lemma handlers_without_state_fail_without_effect_witness :
  files closed_file_world !! 1%positive = Some {| private_data := NULL |}
  /\ exists w',
       modbus_dev_read 1 4096 16 1 closed_file_world = Some (- ENOMEM, w')
       /\ unchanged_but_log closed_file_world w'.
Proof.
  split; [reflexivity |].
  apply (handlers_without_state_fail_without_effect closed_file_world 1
           {| private_data := NULL |} eq_refl 1 0 0 4096 16 1 eq_refl).
Defined.

Lemma handlers_with_state_are_stubs_witness :
  files open_file_world !! 1%positive = Some {| private_data := Ptr 7 |}
  /\ exists w',
       modbus_dev_ioctl 1 21505 0 open_file_world = Some (0, w')
       /\ unchanged_but_log open_file_world w'.
Proof.
  split; [reflexivity |].
  apply (handlers_with_state_are_stubs open_file_world 1
           {| private_data := Ptr 7 |} eq_refl 21505 0 4096 16 1).
  discriminate.
Defined.

Lemma alloc_failure_and_missing_state_share_errno_witness :
  env_kzalloc sample_env_no_memory = false
  /\ files closed_file_world !! 1%positive = Some {| private_data := NULL |}
  /\ fst <$> modbus_dev_open sample_env_no_memory 1 1 open_file_world
     = Some (-12)
  /\ fst <$> modbus_dev_write 1 4096 16 1 closed_file_world = Some (-12).
Proof.
  split; [reflexivity |]. split; [reflexivity |].
  destruct (alloc_failure_and_missing_state_share_errno closed_file_world 1
              {| private_data := NULL |} eq_refl sample_env_no_memory 1 1
              open_file_world 1 0 0 4096 16 1 eq_refl eq_refl)
    as (_ & Hopen & _ & _ & _ & Hwrite).
  split; [exact Hopen | exact Hwrite].
Defined.

Lemma read_write_frame_witness :
  files open_file_world !! 1%positive = Some {| private_data := Ptr 7 |}
  /\ exists ret w',
       modbus_dev_read 1 4096 16 1 open_file_world = Some (ret, w')
       /\ loffs w' = loffs open_file_world
       /\ umem w' = umem open_file_world
       /\ slab w' = slab open_file_world
       /\ files w' = files open_file_world.
Proof.
  split; [reflexivity |].
  apply (read_write_frame open_file_world 1 {| private_data := Ptr 7 |}
           eq_refl 4096 16 1).
  discriminate.
Defined.

(** ** Initialize: status, rollback and reload *)

(** X1: [modbus_dev_init] returns 0 when the kernel grants all five calls;
    otherwise it returns the negated errno of the first call that failed,
    except that a failed [cdev_alloc] gives -1.  It never returns a positive
    value. *)
Theorem modbus_dev_init_status env w :
  exists ret w',
    modbus_dev_init env w = Some (ret, w')
    /\ ret <= 0
    /\ ret =
         match env_alloc_chrdev_region env, env_cdev_alloc env,
               env_cdev_add env, env_class_create env,
               env_device_create env with
         | Err errno, _, _, _, _ => Z.neg errno
         | Ok _, None, _, _, _ => -1
         | Ok _, Some _, Err errno, _, _ => Z.neg errno
         | Ok _, Some _, Ok _, Err errno, _ => Z.neg errno
         | Ok _, Some _, Ok _, Ok _, Err errno => Z.neg errno
         | Ok _, Some _, Ok _, Ok _, Ok _ => 0
         end.
Proof.
  destruct env as [[major|e1] [cdev|] [[]|e2] [cls|e3] [node|e4] kz];
    unfold modbus_dev_init; run;
    do 2 eexists; (split; [reflexivity |]); cbn; split; (lia || reflexivity).
Qed.

(** X2: unless the failing call is [cdev_alloc], a [modbus_dev_init] that
    does not return 0 returns a negative status with nothing of the module
    held by the kernel. *)
Theorem modbus_dev_init_failure_holds_nothing env w :
  is_Some (env_cdev_alloc env)
  \/ (exists errno, env_alloc_chrdev_region env = Err errno) ->
  exists ret w',
    modbus_dev_init env w = Some (ret, w')
    /\ (ret = 0 \/ ret < 0 /\ held_after (emitted w w') = []).
Proof.
  intros Hcase.
  destruct env as [[major|e1] [cdev|] [[]|e2] [cls|e3] [node|e4] kz];
    try (destruct Hcase as [[? [=]] | [? [=]]]; fail);
    unfold modbus_dev_init; run;
    do 2 eexists; (split; [reflexivity |]);
    erewrite emitted_app by trace_shape;
    first [ by left | right; split; [lia | ledger; reflexivity] ].
Qed.

Lemma modbus_dev_init_failure_holds_nothing_witness :
  is_Some (env_cdev_alloc sample_env_no_class)
  /\ exists ret w',
       modbus_dev_init sample_env_no_class boot_world = Some (ret, w')
       /\ (ret = 0 \/ ret < 0 /\ held_after (emitted boot_world w') = []).
Proof.
  split; [by eexists |].
  apply (modbus_dev_init_failure_holds_nothing sample_env_no_class
           boot_world).
  left. by eexists.
Defined.

(** X3: whatever the kernel answers, every release call [modbus_dev_init]
    makes names something the kernel holds at that moment.  It makes none
    when it succeeds and none when [alloc_chrdev_region] or [cdev_alloc]
    fails; when [cdev_add] or [class_create] fails it releases the cdev,
    then the region; when [device_create] fails it releases the class, then
    the cdev, then the region. *)
Theorem modbus_dev_init_rollback_discipline env w :
  exists ret w',
    modbus_dev_init env w = Some (ret, w')
    /\ releases_only_held [] (emitted w w') = true
    /\ release_calls (emitted w w') =
         match env_alloc_chrdev_region env, env_cdev_alloc env,
               env_cdev_add env, env_class_create env,
               env_device_create env with
         | Ok _, Some _, Err _, _, _ =>
             [DispatchRegistration; DeviceIdentity]
         | Ok _, Some _, Ok _, Err _, _ =>
             [DispatchRegistration; DeviceIdentity]
         | Ok _, Some _, Ok _, Ok _, Err _ =>
             [DeviceClass; DispatchRegistration; DeviceIdentity]
         | _, _, _, _, _ => []
         end.
Proof.
  destruct env as [[major|e1] [cdev|] [[]|e2] [cls|e3] [node|e4] kz];
    unfold modbus_dev_init; run;
    do 2 eexists; (split; [reflexivity |]);
    erewrite !emitted_app by trace_shape;
    (split; [ledger; reflexivity | reflexivity]).
Qed.

(** X4: the status of [modbus_dev_init] and the calls it makes depend on the
    kernel's answers only, not on the state it starts from; after a
    successful run the module's variables do not depend on it either. *)
Theorem modbus_dev_init_ignores_start_state env w1 w2 :
  exists ret w1' w2',
    modbus_dev_init env w1 = Some (ret, w1')
    /\ modbus_dev_init env w2 = Some (ret, w2')
    /\ emitted w1 w1' = emitted w2 w2'
    /\ (ret = 0 -> globals w1' = globals w2').
Proof.
  destruct env as [[major|e1] [cdev|] [[]|e2] [cls|e3] [node|e4] kz];
    unfold modbus_dev_init; run;
    do 3 eexists; (split; [reflexivity |]); (split; [reflexivity |]);
    erewrite !emitted_app by trace_shape;
    (split; [reflexivity |]); intros Hret;
    first [discriminate Hret | reflexivity].
Qed.

(** X5: when [alloc_chrdev_region] fails, [modbus_dev_init] returns its
    negated errno after that one call, and the module's variables are as
    they were. *)
Theorem modbus_dev_init_region_failure_is_clean env w errno :
  env_alloc_chrdev_region env = Err errno ->
  exists w',
    modbus_dev_init env w = Some (Z.neg errno, w')
    /\ emitted w w' =
         [EvAllocChrdevRegion firstOfMinorNum countOfMinorNum DEVICE_NAME
            (Err errno)]
    /\ globals w' = globals w.
Proof.
  intros Hregion. unfold modbus_dev_init. run. rewrite Hregion. cbn.
  eexists. split; [reflexivity |].
  erewrite emitted_app by trace_shape. split; [reflexivity |].
  cbn. by destruct (globals w).
Qed.

Lemma modbus_dev_init_region_failure_is_clean_witness :
  env_alloc_chrdev_region sample_env_no_region = Err 16%positive
  /\ exists w',
       modbus_dev_init sample_env_no_region live_world = Some (-16, w')
       /\ emitted live_world w' =
            [EvAllocChrdevRegion firstOfMinorNum countOfMinorNum DEVICE_NAME
               (Err 16%positive)]
       /\ globals w' = globals live_world.
Proof.
  split; [reflexivity |].
  apply (modbus_dev_init_region_failure_is_clean sample_env_no_region
           live_world 16%positive).
  reflexivity.
Defined.

(** X6: after a [modbus_dev_init] that returned 0, the device number in
    [firstAssignedDevNum] has the minor number the module asked for, and the
    kernel holds, under the module's class and on that number, a node called
    modbus_dev0. *)
Theorem modbus_dev_init_node_is_modbus_dev0 env w w' :
  modbus_dev_init env w = Some (0, w') ->
  MINOR (firstAssignedDevNum (globals w')) = firstOfMinorNum
  /\ ResDevice (modbusClass (globals w')) (firstAssignedDevNum (globals w'))
       "modbus_dev0"
     ∈ held_after (emitted w w').
Proof.
  destruct env as [[major|e1] [cdev|] [[]|e2] [cls|e3] [node|e4] kz];
    unfold modbus_dev_init; run; intros [= <-].
  erewrite emitted_app by trace_shape.
  cbn [globals with_globals with_ktrace with_klog firstAssignedDevNum
       modbusClass].
  split; [apply MINOR_MKDEV; unfold firstOfMinorNum, MINORBITS; lia |].
  unfold held_after, held_from. cbn [foldl kernel_step app].
  rewrite node_name_modbus_dev0. set_solver.
Qed.

Lemma modbus_dev_init_node_is_modbus_dev0_witness :
  modbus_dev_init sample_env boot_world = Some (0, live_world)
  /\ MINOR (firstAssignedDevNum (globals live_world)) = firstOfMinorNum
  /\ ResDevice (modbusClass (globals live_world))
       (firstAssignedDevNum (globals live_world)) "modbus_dev0"
     ∈ held_after (emitted boot_world live_world).
Proof.
  split; [reflexivity |].
  apply (modbus_dev_init_node_is_modbus_dev0 sample_env boot_world
           live_world).
  reflexivity.
Defined.

(** X7: after a load that returned 0 and the unload that follows it, a
    second [modbus_dev_init] returns what it would have returned on the
    fresh module, and what the kernel then holds is what this second run
    alone acquired and kept. *)
Theorem modbus_dev_reload env1 env2 w w1 :
  modbus_dev_init env1 w = Some (0, w1) ->
  exists w2 ret w3,
    modbus_dev_exit w1 = Some (tt, w2)
    /\ modbus_dev_init env2 w2 = Some (ret, w3)
    /\ fst <$> modbus_dev_init env2 w = Some ret
    /\ held_after (emitted w w3) = held_after (emitted w2 w3).
Proof.
  destruct env1 as [[major|e1] [cdev|] [[]|e2] [cls|e3] [node|e4] kz];
    unfold modbus_dev_init at 1; run; intros [= <-].
  destruct env2 as [[major'|e1] [cdev'|] [[]|e2] [cls'|e3] [node'|e4] kz'];
    unfold modbus_dev_exit, modbus_dev_init; run;
    do 3 eexists; (split; [reflexivity |]); (split; [reflexivity |]);
    (split; [reflexivity |]);
    erewrite !emitted_app by trace_shape; ledger; reflexivity.
Qed.

Lemma modbus_dev_reload_witness :
  modbus_dev_init sample_env boot_world = Some (0, live_world)
  /\ exists w2 ret w3,
       modbus_dev_exit live_world = Some (tt, w2)
       /\ modbus_dev_init sample_env_no_class w2 = Some (ret, w3)
       /\ fst <$> modbus_dev_init sample_env_no_class boot_world = Some ret
       /\ held_after (emitted boot_world w3) = held_after (emitted w2 w3).
Proof.
  split; [reflexivity |].
  apply (modbus_dev_reload sample_env sample_env_no_class boot_world
           live_world).
  reflexivity.
Defined.

(** X8: the last record [modbus_dev_init] writes to the kernel log reports
    a failure at error level, except when the failing call is
    [device_create]: that failure is logged at info level. *)
Theorem modbus_dev_init_failure_log_level env w :
  exists ret w' r,
    modbus_dev_init env w = Some (ret, w')
    /\ last (klog w') = Some r
    /\ (ret <> 0 ->
        pk_level r =
          if reached_device_create (emitted w w') then KERN_INFO
          else KERN_ERR).
Proof.
  destruct env as [[major|e1] [cdev|] [[]|e2] [cls|e3] [node|e4] kz];
    unfold modbus_dev_init; run;
    do 3 eexists; (split; [reflexivity |]);
    erewrite !emitted_app by trace_shape; cbn;
    (split; [apply last_snoc |]); intros Hret;
    first [reflexivity | done].
Qed.

(** ** Descriptors: how open and close compose *)

(** What a successful [modbus_dev_open] leaves. *)
Lemma modbus_dev_open_success env inode file w f :
  env_kzalloc env = true ->
  files w !! file = Some f ->
  exists w',
    modbus_dev_open env inode file w = Some (0, w')
    /\ slab w' = <[fresh (dom (slab w)) := zeroed_private_data]> (slab w)
    /\ files w' =
         <[file := {| private_data := Ptr (fresh (dom (slab w))) |}]>
           (files w)
    /\ globals w' = globals w /\ ktrace w' = ktrace w
    /\ umem w' = umem w /\ loffs w' = loffs w.
Proof.
  intros Henv Hfile. unfold modbus_dev_open. run.
  rewrite Henv. cbn. rewrite Hfile.
  eexists. split; [reflexivity |]. repeat split.
Qed.

(** What [modbus_dev_close] leaves when a state is attached. *)
Lemma modbus_dev_close_success inode file w f a :
  files w !! file = Some f ->
  private_data f = Ptr a ->
  exists w',
    modbus_dev_close inode file w = Some (0, w')
    /\ slab w' = delete a (slab w)
    /\ files w' = files w
    /\ globals w' = globals w /\ ktrace w' = ktrace w
    /\ umem w' = umem w /\ loffs w' = loffs w.
Proof.
  intros Hfile Hp. destruct f as [p]. cbn in Hp. subst p.
  unfold modbus_dev_close. handler Hfile.
  eexists. split; [reflexivity |]. repeat split.
Qed.

Lemma fresh_slab_address (s : gmap positive struct_private_data) :
  s !! fresh (dom s) = None.
Proof. apply not_elem_of_dom, is_fresh. Qed.

(** X9: a successful [modbus_dev_open] followed by [modbus_dev_close] on the
    same file object returns 0 twice and leaves the live states exactly as
    they were before the open, as well as the module's variables, the
    device-model trace, user memory and the file positions. *)
Theorem open_then_close_releases_the_state env inode file w f :
  env_kzalloc env = true ->
  files w !! file = Some f ->
  exists w1 w2,
    modbus_dev_open env inode file w = Some (0, w1)
    /\ modbus_dev_close inode file w1 = Some (0, w2)
    /\ slab w2 = slab w
    /\ globals w2 = globals w /\ ktrace w2 = ktrace w
    /\ umem w2 = umem w /\ loffs w2 = loffs w.
Proof.
  intros Henv Hfile.
  destruct (modbus_dev_open_success env inode file w f Henv Hfile)
    as (w1 & Hopen & Hslab1 & Hfiles1 & Hg1 & Htr1 & Hum1 & Hlo1).
  destruct (modbus_dev_close_success inode file w1
              {| private_data := Ptr (fresh (dom (slab w))) |}
              (fresh (dom (slab w))))
    as (w2 & Hclose & Hslab2 & Hfiles2 & Hg2 & Htr2 & Hum2 & Hlo2).
  { rewrite Hfiles1. apply lookup_insert_eq. }
  { reflexivity. }
  exists w1, w2. split; [exact Hopen |]. split; [exact Hclose |].
  split.
  - rewrite Hslab2, Hslab1. apply delete_insert_id, fresh_slab_address.
  - repeat split; congruence.
Qed.

Lemma open_then_close_releases_the_state_witness :
  env_kzalloc sample_env = true
  /\ files closed_file_world !! 1%positive = Some {| private_data := NULL |}
  /\ exists w1 w2,
       modbus_dev_open sample_env 1 1 closed_file_world = Some (0, w1)
       /\ modbus_dev_close 1 1 w1 = Some (0, w2)
       /\ slab w2 = slab closed_file_world.
Proof.
  split; [reflexivity |]. split; [reflexivity |].
  destruct (open_then_close_releases_the_state sample_env 1 1
              closed_file_world {| private_data := NULL |} eq_refl eq_refl)
    as (w1 & w2 & Hopen & Hclose & Hslab & _).
  exists w1, w2. auto.
Defined.

(** X10: two successful calls of [modbus_dev_open] on two file objects give
    them two different addresses, and after both calls each address holds a
    zeroed state. *)
Theorem two_opens_get_distinct_states env inode1 file1 inode2 file2 w f1 f2 :
  env_kzalloc env = true ->
  file1 <> file2 ->
  files w !! file1 = Some f1 ->
  files w !! file2 = Some f2 ->
  exists a1 a2 w1 w2,
    modbus_dev_open env inode1 file1 w = Some (0, w1)
    /\ modbus_dev_open env inode2 file2 w1 = Some (0, w2)
    /\ a1 <> a2
    /\ files w2 !! file1 = Some {| private_data := Ptr a1 |}
    /\ files w2 !! file2 = Some {| private_data := Ptr a2 |}
    /\ slab w2 !! a1 = Some zeroed_private_data
    /\ slab w2 !! a2 = Some zeroed_private_data.
Proof.
  intros Henv Hne Hf1 Hf2.
  destruct (modbus_dev_open_success env inode1 file1 w f1 Henv Hf1)
    as (w1 & Hopen1 & Hslab1 & Hfiles1 & _).
  assert (files w1 !! file2 = Some f2) as Hf2'
    by (rewrite Hfiles1, lookup_insert_ne; done).
  destruct (modbus_dev_open_success env inode2 file2 w1 f2 Henv Hf2')
    as (w2 & Hopen2 & Hslab2 & Hfiles2 & _).
  set (a1 := fresh (dom (slab w))) in *.
  set (a2 := fresh (dom (slab w1))) in *.
  assert (a1 <> a2) as Hdistinct.
  { intros Heq. pose proof (fresh_slab_address (slab w1)) as Hfresh.
    fold a2 in Hfresh. rewrite <- Heq, Hslab1, lookup_insert_eq in Hfresh.
    discriminate. }
  exists a1, a2, w1, w2. repeat split; try assumption.
  - rewrite Hfiles2, lookup_insert_ne, Hfiles1 by done.
    apply lookup_insert_eq.
  - rewrite Hfiles2. apply lookup_insert_eq.
  - rewrite Hslab2, lookup_insert_ne, Hslab1 by done.
    apply lookup_insert_eq.
  - rewrite Hslab2. apply lookup_insert_eq.
Qed.

Lemma two_opens_get_distinct_states_witness :
  env_kzalloc sample_env = true
  /\ 1%positive <> 2%positive
  /\ files two_files_world !! 1%positive = Some {| private_data := NULL |}
  /\ files two_files_world !! 2%positive = Some {| private_data := NULL |}
  /\ exists a1 a2 w1 w2,
       modbus_dev_open sample_env 1 1 two_files_world = Some (0, w1)
       /\ modbus_dev_open sample_env 1 2 w1 = Some (0, w2)
       /\ a1 <> a2
       /\ files w2 !! 1%positive = Some {| private_data := Ptr a1 |}
       /\ files w2 !! 2%positive = Some {| private_data := Ptr a2 |}
       /\ slab w2 !! a1 = Some zeroed_private_data
       /\ slab w2 !! a2 = Some zeroed_private_data.
Proof.
  split; [reflexivity |]. split; [discriminate |].
  split; [reflexivity |]. split; [reflexivity |].
  apply (two_opens_get_distinct_states sample_env 1 1 1 2 two_files_world
           {| private_data := NULL |} {| private_data := NULL |});
    first [reflexivity | discriminate].
Defined.

(** X11: [modbus_dev_close] on one file object returns 0 and releases the
    state of that object only: the state attached to another file object
    stays live and attached, and [modbus_dev_ioctl] on that other object
    still returns 0. *)
Theorem close_spares_other_descriptors
    inode file1 file2 w f1 f2 a1 a2 st cmd arg :
  files w !! file1 = Some f1 ->
  private_data f1 = Ptr a1 ->
  files w !! file2 = Some f2 ->
  private_data f2 = Ptr a2 ->
  a1 <> a2 ->
  slab w !! a2 = Some st ->
  exists w1 w2,
    modbus_dev_close inode file1 w = Some (0, w1)
    /\ files w1 !! file2 = Some f2
    /\ slab w1 !! a2 = Some st
    /\ slab w1 !! a1 = None
    /\ modbus_dev_ioctl file2 cmd arg w1 = Some (0, w2).
Proof.
  intros Hf1 Hp1 Hf2 Hp2 Hne Hst.
  destruct (modbus_dev_close_success inode file1 w f1 a1 Hf1 Hp1)
    as (w1 & Hclose & Hslab1 & Hfiles1 & _).
  assert (files w1 !! file2 = Some f2) as Hf2' by (by rewrite Hfiles1).
  destruct f2 as [p2]. cbn in Hp2. subst p2.
  eexists w1, _. split; [exact Hclose |]. split; [exact Hf2' |].
  split; [by rewrite Hslab1, lookup_delete_ne |].
  split; [rewrite Hslab1; apply lookup_delete_eq |].
  unfold modbus_dev_ioctl. handler Hf2'. reflexivity.
Qed.

Lemma close_spares_other_descriptors_witness :
  files two_open_files_world !! 1%positive = Some {| private_data := Ptr 7 |}
  /\ files two_open_files_world !! 2%positive
     = Some {| private_data := Ptr 8 |}
  /\ slab two_open_files_world !! 8%positive = Some zeroed_private_data
  /\ exists w1 w2,
       modbus_dev_close 1 1 two_open_files_world = Some (0, w1)
       /\ files w1 !! 2%positive = Some {| private_data := Ptr 8 |}
       /\ slab w1 !! 8%positive = Some zeroed_private_data
       /\ slab w1 !! 7%positive = None
       /\ modbus_dev_ioctl 2 21505 0 w1 = Some (0, w2).
Proof.
  split; [reflexivity |]. split; [reflexivity |]. split; [reflexivity |].
  apply (close_spares_other_descriptors 1 1 2 two_open_files_world
           {| private_data := Ptr 7 |} {| private_data := Ptr 8 |} 7 8
           zeroed_private_data 21505 0);
    first [reflexivity | discriminate].
Defined.

(** ** A whole life of the module *)

(** X12: after a load that returned 0, an open, a read, a close and the
    unload all succeed in that order, the read reporting 0 bytes; at the end
    the kernel holds nothing of the module, and the live states, user memory
    and the file positions are as before the load. *)
Theorem load_use_unload_leaves_nothing
    env w w1 inode file f buf lbuf ppos :
  modbus_dev_init env w = Some (0, w1) ->
  env_kzalloc env = true ->
  files w !! file = Some f ->
  exists w2 w3 w4 w5,
    modbus_dev_open env inode file w1 = Some (0, w2)
    /\ modbus_dev_read file buf lbuf ppos w2 = Some (0, w3)
    /\ modbus_dev_close inode file w3 = Some (0, w4)
    /\ modbus_dev_exit w4 = Some (tt, w5)
    /\ held_after (emitted w w5) = []
    /\ slab w5 = slab w
    /\ umem w5 = umem w /\ loffs w5 = loffs w.
Proof.
  destruct env as [[major|e1] [cdev|] [[]|e2] [cls|e3] [node|e4] kz];
    unfold modbus_dev_init; run; intros [= <-] Henv Hfile.
  cbn in Henv. subst kz.
  unfold modbus_dev_open, modbus_dev_read, modbus_dev_close, modbus_dev_exit.
  run. rewrite Hfile. cbn.
  do 4 eexists. split; [reflexivity |]. cbn.
  rewrite lookup_insert_eq. cbn.
  split; [reflexivity |]. cbn. rewrite lookup_insert_eq. cbn.
  split; [reflexivity |]. cbn.
  split; [reflexivity |].
  erewrite emitted_app by trace_shape.
  split; [ledger; reflexivity |]. cbn.
  split; [apply delete_insert_id, fresh_slab_address | split; reflexivity].
Qed.

Lemma load_use_unload_leaves_nothing_witness :
  modbus_dev_init sample_env closed_file_world = Some (0, live_file_world)
  /\ env_kzalloc sample_env = true
  /\ files closed_file_world !! 1%positive = Some {| private_data := NULL |}
  /\ exists w2 w3 w4 w5,
       modbus_dev_open sample_env 1 1 live_file_world = Some (0, w2)
       /\ modbus_dev_read 1 4096 16 1 w2 = Some (0, w3)
       /\ modbus_dev_close 1 1 w3 = Some (0, w4)
       /\ modbus_dev_exit w4 = Some (tt, w5)
       /\ held_after (emitted closed_file_world w5) = []
       /\ slab w5 = slab closed_file_world
       /\ umem w5 = umem closed_file_world
       /\ loffs w5 = loffs closed_file_world.
Proof.
  split; [reflexivity |]. split; [reflexivity |]. split; [reflexivity |].
  apply (load_use_unload_leaves_nothing sample_env closed_file_world
           live_file_world 1 1 {| private_data := NULL |} 4096 16 1);
    reflexivity.
Defined.
